(** * Activity Index (Bai et al. 2016): the notebook's three functions

    A shallow embedding of [getNoiseValue], [getActivityIndex] and
    [getSignalActivityIndex] of ActivityIndex.ipynb.

    Numbers.  The notebook computes with numpy.float64 scalars (the result
    of [Series.var]) and Python ints.  They are modelled as the reals
    extended with the IEEE special values: a finite value carries an exact
    real, and the operations follow the IEEE rules for infinities and NaN.
    Rounding, overflow to infinity and the sign of zero are not modelled.

    Failures.  A Python exception is a [Raise]; a numpy division by zero
    is not one (it yields inf or nan and a RuntimeWarning). *)

From Stdlib Require Import Reals Lra Lia ZArith String List Bool Permutation.
Import ListNotations.

Open Scope R_scope.

(** ** Exceptions and the error monad *)

Inductive exn : Type :=
| UnboundLocalError
| ZeroDivisionError
| ValueError.

Inductive result (A : Type) : Type :=
| Ok (a : A)
| Raise (e : exn).

Arguments Ok {A} a.
Arguments Raise {A} e.

Definition bind {A B : Type} (m : result A) (k : A -> result B) : result B :=
  match m with
  | Ok a => k a
  | Raise e => Raise e
  end.

Notation "x <- m ;; k" := (bind m (fun x => k))
  (at level 61, m at next level, right associativity).

(** ** numpy.float64 scalars *)

Module Np.

Inductive float64 : Type :=
| Fin (r : R)
| PInf
| NInf
| NaN.

Definition zero : float64 := Fin 0.
Definition three : float64 := Fin 3.

Definition add (a b : float64) : float64 :=
  match a, b with
  | NaN, _ | _, NaN => NaN
  | Fin r, Fin s => Fin (r + s)
  | PInf, NInf | NInf, PInf => NaN
  | PInf, _ | _, PInf => PInf
  | NInf, _ | _, NInf => NInf
  end.

Definition sub (a b : float64) : float64 :=
  match a, b with
  | NaN, _ | _, NaN => NaN
  | Fin r, Fin s => Fin (r - s)
  | PInf, PInf | NInf, NInf => NaN
  | PInf, _ | _, NInf => PInf
  | NInf, _ | _, PInf => NInf
  end.

(** The sign of a finite value, zero counting as +0. *)
Definition nonneg (r : R) : bool := if Rlt_dec r 0 then false else true.

Definition signed_inf (positive : bool) : float64 :=
  if positive then PInf else NInf.

Definition mul (a b : float64) : float64 :=
  match a, b with
  | NaN, _ | _, NaN => NaN
  | Fin r, Fin s => Fin (r * s)
  | Fin r, PInf | PInf, Fin r =>
      if Req_dec_T r 0 then NaN else signed_inf (nonneg r)
  | Fin r, NInf | NInf, Fin r =>
      if Req_dec_T r 0 then NaN else signed_inf (negb (nonneg r))
  | PInf, PInf | NInf, NInf => PInf
  | PInf, NInf | NInf, PInf => NaN
  end.

(** numpy's true division: x / 0 is inf or -inf, 0 / 0 is nan, and
    nothing is raised. *)
Definition div (a b : float64) : float64 :=
  match a, b with
  | NaN, _ | _, NaN => NaN
  | Fin r, Fin s =>
      if Req_dec_T s 0
      then (if Req_dec_T r 0 then NaN else signed_inf (nonneg r))
      else Fin (r / s)
  | Fin _, PInf | Fin _, NInf => Fin 0
  | PInf, Fin s => signed_inf (nonneg s)
  | NInf, Fin s => signed_inf (negb (nonneg s))
  | _, _ => NaN
  end.

(** [a < b]; every comparison with NaN is false. *)
Definition ltb (a b : float64) : bool :=
  match a, b with
  | NaN, _ | _, NaN => false
  | Fin r, Fin s => if Rlt_dec r s then true else false
  | NInf, NInf | PInf, _ | _, NInf => false
  | NInf, _ | _, PInf => true
  end.

Definition gtb (a b : float64) : bool := ltb b a.

Definition leb (a b : float64) : bool :=
  match a, b with
  | NaN, _ | _, NaN => false
  | Fin r, Fin s => if Rle_dec r s then true else false
  | NInf, _ | _, PInf => true
  | _, _ => false
  end.

End Np.

Import Np.

Declare Scope np_scope.
Delimit Scope np_scope with np.
Infix "+" := Np.add : np_scope.
Infix "-" := Np.sub : np_scope.
Infix "*" := Np.mul : np_scope.
Infix "/" := Np.div : np_scope.

(** ** Python built-ins *)

(** [max(a, b)]: the second item replaces the first only when it compares
    greater. *)
Definition py_max (a b : float64) : float64 :=
  if Np.gtb b a then b else a.

(** [math.sqrt]: ValueError (math domain error) on a negative argument. *)
Definition math_sqrt (a : float64) : result float64 :=
  match a with
  | NaN => Ok NaN
  | PInf => Ok PInf
  | NInf => Raise ValueError
  | Fin r => if Rlt_dec r 0 then Raise ValueError else Ok (Fin (sqrt r))
  end.

(** [a // b] on ints. *)
Definition py_floordiv (a b : Z) : result Z :=
  if (b =? 0)%Z then Raise ZeroDivisionError else Ok (a / b)%Z.

(** [range(n)]. *)
Definition range (n : Z) : list Z :=
  map Z.of_nat (seq 0 (Z.to_nat n)).

(** ** pandas: the data frame with columns x, y, z *)

Record sample : Type := Sample { sx : R; sy : R; sz : R }.

Definition DataFrame : Type := list sample.

Definition len (df : DataFrame) : Z := Z.of_nat (length df).

Definition Rsum (l : list R) : R := fold_right Rplus 0 l.

(** [Series.var()] with its default ddof = 1 (pandas.core.nanops.nanvar):
    NaN when there are not more than ddof values. *)
Definition var (values : list R) : float64 :=
  let count := length values in
  if (count <=? 1)%nat then NaN
  else
    let d := INR count - 1 in
    let avg := Rsum values / INR count in
    let sqr := map (fun v => (avg - v) ^ 2) values in
    Fin (Rsum sqr / d).

(** A slice bound of [iloc], as Python resolves it against the length. *)
Definition slice_index (n k : Z) : Z :=
  if (k <? 0)%Z then Z.max 0 (k + n) else Z.min k n.

(** [df.iloc[start:end]]. *)
Definition iloc (df : DataFrame) (start stop : Z) : DataFrame :=
  let lo := slice_index (len df) start in
  let hi := slice_index (len df) stop in
  firstn (Z.to_nat (hi - lo)) (skipn (Z.to_nat lo) df).

(** ** The notebook's functions *)

Definition getNoiseValue (df : DataFrame) (mode : string) : result float64 :=
  let sysnoise : option float64 := None in
  let sysnoise :=
    if (mode =? "paper")%string
    then Some (var (map sx df) + var (map sy df) + var (map sz df))%np
    else sysnoise in
  let sysnoise :=
    if (mode =? "bai")%string
    then Some ((var (map sx df) + var (map sy df) + var (map sz df)) / three)%np
    else sysnoise in
  match sysnoise with
  | Some v => Ok v
  | None => Raise UnboundLocalError
  end.

(** The call [getNoiseValue(df)], [mode] taking its declared default. *)
Definition getNoiseValue_default (df : DataFrame) : result float64 :=
  getNoiseValue df "author".

Definition getActivityIndex (df : DataFrame) (noise : float64) (rel : bool)
  : result float64 :=
  let '(x, y, z) :=
    if Bool.eqb rel false then
      ((var (map sx df) - noise)%np,
       (var (map sy df) - noise)%np,
       (var (map sz df) - noise)%np)
    else
      (((var (map sx df) - noise) / noise)%np,
       ((var (map sy df) - noise) / noise)%np,
       ((var (map sz df) - noise) / noise)%np) in
  let avg := ((x + y + z) / three)%np in
  let max_value := py_max avg zero in
  math_sqrt max_value.

(** The body of the [for] loop, run over the remaining indices with the
    accumulator [ai_signal]. *)
Fixpoint chunk_loop (df : DataFrame) (noise : float64) (freq : Z) (rel : bool)
    (indices : list Z) (ai_signal : float64) : result float64 :=
  match indices with
  | [] => Ok ai_signal
  | i :: rest =>
      let start := (i * freq)%Z in
      let stop := (i * freq + freq)%Z in
      ai <- getActivityIndex (iloc df start stop) noise rel ;;
      chunk_loop df noise freq rel rest (ai_signal + ai)%np
  end.

Definition getSignalActivityIndex (df : DataFrame) (noise : float64)
    (freq : Z) (rel : bool) : result (float64 * Z) :=
  nchunks <- py_floordiv (len df) freq ;;
  ai_signal <- chunk_loop df noise freq rel (range nchunks) zero ;;
  duration <- py_floordiv (len df) freq ;;
  Ok (ai_signal, duration).

(** ** The quantities the specification names *)

Definition mean (l : list R) : R := Rsum l / INR (length l).

(** The unbiased sample variance: squared deviations from the mean, summed
    and divided by n - 1. *)
Definition sample_variance (l : list R) : R :=
  Rsum (map (fun v => (v - mean l) ^ 2) l) / (INR (length l) - 1).

(** The sum of the three per-axis sample variances of a signal. *)
Definition variance_sum (df : DataFrame) : R :=
  sample_variance (map sx df) + sample_variance (map sy df)
  + sample_variance (map sz df).

(** The same quotient taken in floating point, where a single value gives
    0 / 0. *)
Definition unbiased_variance (l : list R) : float64 :=
  (Fin (Rsum (map (fun v => (v - mean l) ^ 2) l)) / Fin (INR (length l) - 1))%np.

(** [max(avg, 0)] and the square root of the specification's steps 4 and 5,
    on a value that may be infinite or NaN. *)
Definition clamp (a : float64) : float64 :=
  match a with
  | Fin r => Fin (Rmax r 0)
  | PInf => PInf
  | NInf => Fin 0
  | NaN => NaN
  end.

Definition root (a : float64) : float64 :=
  match a with
  | Fin r => Fin (sqrt r)
  | PInf => PInf
  | NInf | NaN => NaN
  end.

(** The average deviation of the specification's steps 2 and 3, on
    floating-point variances and noise, and on real ones. *)
Definition average_deviation (rel : bool) (vx vy vz noise : float64)
  : float64 :=
  if rel
  then (((vx - noise) / noise + (vy - noise) / noise + (vz - noise) / noise)
        / three)%np
  else ((vx - noise + vy - noise + vz - noise) / three)%np.

Definition real_average_deviation (rel : bool) (vx vy vz noise : R) : R :=
  if rel
  then ((vx - noise) / noise + (vy - noise) / noise + (vz - noise) / noise) / 3
  else (vx - noise + vy - noise + vz - noise) / 3.

(** The samples at positions [a, b). *)
Definition slice (df : DataFrame) (a b : nat) : DataFrame :=
  firstn (b - a) (skipn a df).

(** Window [i] of a signal cut into windows of [freq] samples. *)
Definition window (df : DataFrame) (freq i : nat) : DataFrame :=
  slice df (i * freq) (i * freq + freq).

(** The score of a window as a value; the scorer raises on no window
    ([getActivityIndex_total]). *)
Definition scoreWindow (w : DataFrame) (noise : float64) (rel : bool)
  : float64 :=
  match getActivityIndex w noise rel with
  | Ok v => v
  | Raise _ => NaN
  end.

Definition fsum (l : list float64) : float64 := fold_right Np.add zero l.

(** A value that compares below zero. *)
Definition negative (a : float64) : Prop := Np.ltb a zero = true.

(** ** The notebook's example cells *)

(** [sample[a:b]]: on the default index a slice selects rows by position. *)
Definition getitem_slice (df : DataFrame) (a b : Z) : DataFrame :=
  iloc df a b.

(** The cells [signal = sample[150:600]], [noise = sample[1004700:1005600]],
    [acc_noise = getNoiseValue(noise, mode="bai")] and the final call
    [getSignalActivityIndex(signal, acc_noise, 30, rel=True)].  The
    [copy()] and [reset_index()] of the signal keep its rows and its x, y
    and z columns as they are. *)
Definition notebook_example (sample_df : DataFrame) : result (float64 * Z) :=
  let signal := getitem_slice sample_df 150 600 in
  let noise := getitem_slice sample_df 1004700 1005600 in
  acc_noise <- getNoiseValue noise "bai" ;;
  getSignalActivityIndex signal acc_noise 30 true.

(** Estimating the noise on a reference and scoring a signal against it. *)
Definition calibrate_and_score (reference signal : DataFrame) (mode : string)
    (freq : Z) (rel : bool) : result (float64 * Z) :=
  acc_noise <- getNoiseValue reference mode ;;
  getSignalActivityIndex signal acc_noise freq rel.

(** ** Transformations of a signal *)

(** Every sample moved by the same offset [c]. *)
Definition offset (c : sample) (df : DataFrame) : DataFrame :=
  map (fun s => Sample (sx s + sx c) (sy s + sy c) (sz s + sz c)) df.

(** Every reading multiplied by [k] (a change of unit). *)
Definition scaled (k : R) (df : DataFrame) : DataFrame :=
  map (fun s => Sample (k * sx s) (k * sy s) (k * sz s)) df.

(** The mean of the three per-axis sample variances of a window. *)
Definition mean_variance (df : DataFrame) : R := variance_sum df / 3.

(** * Properties *)

Ltac np_cases :=
  repeat (simpl; unfold Np.nonneg;
          match goal with
          | |- context [Req_dec_T ?a ?b] => destruct (Req_dec_T a b)
          | |- context [Rlt_dec ?a ?b] => destruct (Rlt_dec a b)
          | |- context [Rle_dec ?a ?b] => destruct (Rle_dec a b)
          end);
  simpl; try reflexivity; try lra.

(** ** The variance *)

Lemma Rsum_sq_nonneg (c : R) (l : list R) :
  0 <= Rsum (map (fun v => (v - c) ^ 2) l).
Proof.
  unfold Rsum. induction l as [|v l IH]; cbn [map fold_right].
  - lra.
  - pose proof (pow2_ge_0 (v - c)) as Hsq. lra.
Qed.

Lemma INR_two_le (n : nat) : (2 <= n)%nat -> 2 <= INR n.
Proof.
  intros H. apply le_INR in H. simpl in H. lra.
Qed.

Lemma var_short (l : list R) : (length l <= 1)%nat -> var l = NaN.
Proof.
  intros H. unfold var.
  destruct (Nat.leb_spec (length l) 1) as [_|Hgt]; [reflexivity | lia].
Qed.

Lemma var_sample_variance (l : list R) :
  (2 <= length l)%nat -> var l = Fin (sample_variance l).
Proof.
  intros H. unfold var, sample_variance, mean.
  destruct (Nat.leb_spec (length l) 1) as [Hle|_]; [lia|].
  do 2 f_equal. f_equal. apply map_ext. intros v. ring.
Qed.

Lemma sample_variance_nonneg (l : list R) :
  (2 <= length l)%nat -> 0 <= sample_variance l.
Proof.
  intros H. unfold sample_variance.
  pose proof (INR_two_le _ H) as Hn.
  pose proof (Rsum_sq_nonneg (mean l) l) as Hs.
  apply Rmult_le_pos; [exact Hs|].
  left. apply Rinv_0_lt_compat. lra.
Qed.

Lemma var_unbiased_variance (l : list R) :
  (1 <= length l)%nat -> var l = unbiased_variance l.
Proof.
  intros H. unfold unbiased_variance.
  destruct (Nat.eq_dec (length l) 1) as [H1|H1].
  - rewrite var_short by lia.
    destruct l as [|v [|w l]]; simpl in H1; try discriminate.
    unfold mean. simpl. np_cases.
  - rewrite var_sample_variance by lia. unfold sample_variance. simpl.
    pose proof (INR_two_le (length l) ltac:(lia)) as Hn.
    np_cases.
Qed.

(** ** The noise estimator *)

Lemma mode_neither (mode : string) :
  mode <> "paper"%string -> mode <> "bai"%string ->
  (mode =? "paper")%string = false /\ (mode =? "bai")%string = false.
Proof.
  intros Hp Hb. split; apply String.eqb_neq; assumption.
Qed.

(** C2. A mode other than "paper" and "bai" makes [getNoiseValue] fail: no
    branch assigns [sysnoise], and the [return] raises instead of giving
    a noise value. *)
Theorem getNoiseValue_unknown_mode (df : DataFrame) (mode : string) :
  mode <> "paper"%string -> mode <> "bai"%string ->
  getNoiseValue df mode = Raise UnboundLocalError /\
  (forall v, getNoiseValue df mode <> Ok v).
Proof.
  intros Hp Hb. destruct (mode_neither mode Hp Hb) as [Ep Eb].
  unfold getNoiseValue. rewrite Ep, Eb. split; [reflexivity|].
  intros v Hv. discriminate Hv.
Qed.

Lemma getNoiseValue_unknown_mode_witness :
  getNoiseValue [Sample 0 0 0; Sample 1 1 1] "sum" = Raise UnboundLocalError /\
  (forall v, getNoiseValue [Sample 0 0 0; Sample 1 1 1] "sum" <> Ok v).
Proof.
  apply getNoiseValue_unknown_mode; intros H; discriminate H.
Defined.

(** C9. Called without a mode, [getNoiseValue] fails on every signal: the
    default 'author' selects neither branch. *)
Theorem getNoiseValue_default_raises (df : DataFrame) :
  getNoiseValue_default df = Raise UnboundLocalError.
Proof.
  unfold getNoiseValue_default, getNoiseValue.
  destruct (mode_neither "author") as [Ep Eb]; try (intros H; discriminate H).
  rewrite Ep, Eb. reflexivity.
Qed.

Lemma variance_sum_nonneg (df : DataFrame) :
  (2 <= length df)%nat -> 0 <= variance_sum df.
Proof.
  intros H. unfold variance_sum.
  pose proof (sample_variance_nonneg (map sx df)) as Hx.
  pose proof (sample_variance_nonneg (map sy df)) as Hy.
  pose proof (sample_variance_nonneg (map sz df)) as Hz.
  rewrite length_map in Hx, Hy, Hz.
  specialize (Hx H). specialize (Hy H). specialize (Hz H). lra.
Qed.

Lemma columns_var (df : DataFrame) :
  (2 <= length df)%nat ->
  (var (map sx df) + var (map sy df) + var (map sz df))%np
  = Fin (variance_sum df).
Proof.
  intros H.
  rewrite !var_sample_variance by (rewrite length_map; exact H).
  reflexivity.
Qed.

Lemma noise_paper (df : DataFrame) :
  (2 <= length df)%nat ->
  getNoiseValue df "paper" = Ok (Fin (variance_sum df)).
Proof.
  intros H. unfold getNoiseValue. simpl. rewrite columns_var by exact H.
  reflexivity.
Qed.

Lemma noise_bai (df : DataFrame) :
  (2 <= length df)%nat ->
  getNoiseValue df "bai" = Ok (Fin (variance_sum df / 3)).
Proof.
  intros H. unfold getNoiseValue. simpl. rewrite columns_var by exact H.
  unfold three. simpl. np_cases.
Qed.

Lemma noise_short (df : DataFrame) :
  (length df <= 1)%nat ->
  getNoiseValue df "paper" = Ok NaN /\ getNoiseValue df "bai" = Ok NaN.
Proof.
  intros H. unfold getNoiseValue. simpl.
  rewrite !var_short by (rewrite length_map; exact H).
  split; reflexivity.
Qed.






(** ** The window scorer *)

Lemma math_sqrt_py_max (a : float64) :
  math_sqrt (py_max a zero) = Ok (root (clamp a)).
Proof.
  destruct a as [r| | |]; unfold py_max, Np.gtb, zero; simpl; try reflexivity.
  - destruct (Rlt_dec r 0) as [Hneg|Hpos]; simpl.
    + rewrite Rmax_right by lra. np_cases.
    + rewrite Rmax_left by lra.
      destruct (Rlt_dec r 0); [contradiction | reflexivity].
  - np_cases.
Qed.

Lemma score_absolute (w : DataFrame) (noise : float64) :
  getActivityIndex w noise false
  = Ok (root (clamp ((var (map sx w) - noise + (var (map sy w) - noise)
                      + (var (map sz w) - noise)) / three)%np)).
Proof.
  unfold getActivityIndex. simpl. apply math_sqrt_py_max.
Qed.

Lemma score_relative (w : DataFrame) (noise : float64) :
  getActivityIndex w noise true
  = Ok (root (clamp (((var (map sx w) - noise) / noise
                      + (var (map sy w) - noise) / noise
                      + (var (map sz w) - noise) / noise) / three)%np)).
Proof.
  unfold getActivityIndex. simpl. apply math_sqrt_py_max.
Qed.

Lemma getActivityIndex_total (w : DataFrame) (noise : float64) (rel : bool) :
  exists v, getActivityIndex w noise rel = Ok v.
Proof.
  destruct rel; eexists; [apply score_relative | apply score_absolute].
Qed.

(** Subtracting the noise after each variance or from each variance gives
    the same sum. *)
Lemma sub_add_regroup (a b c n : float64) :
  (a - n + b - n + c - n)%np = (a - n + (b - n) + (c - n))%np.
Proof.
  destruct a, b, c, n; simpl; try reflexivity; f_equal; lra.
Qed.

Lemma score_average_deviation (w : DataFrame) (noise : float64) (rel : bool) :
  getActivityIndex w noise rel
  = Ok (root (clamp (average_deviation rel (var (map sx w)) (var (map sy w))
                       (var (map sz w)) noise))).
Proof.
  destruct rel; unfold average_deviation.
  - apply score_relative.
  - rewrite sub_add_regroup. apply score_absolute.
Qed.

Lemma average_deviation_real (rel : bool) (vx vy vz r : R) :
  (rel = true -> r <> 0) ->
  average_deviation rel (Fin vx) (Fin vy) (Fin vz) (Fin r)
  = Fin (real_average_deviation rel vx vy vz r).
Proof.
  intros Hr. destruct rel; unfold average_deviation, real_average_deviation.
  - specialize (Hr eq_refl). unfold three. simpl.
    destruct (Req_dec_T r 0) as [E|_]; [contradiction|]. simpl. np_cases.
  - unfold three. simpl. np_cases.
Qed.

Lemma score_real (w : DataFrame) (r : R) (rel : bool) :
  (2 <= length w)%nat -> (rel = true -> r <> 0) ->
  getActivityIndex w (Fin r) rel
  = Ok (Fin (sqrt (Rmax (real_average_deviation rel
                           (sample_variance (map sx w))
                           (sample_variance (map sy w))
                           (sample_variance (map sz w)) r) 0))).
Proof.
  intros Hlen Hr. rewrite score_average_deviation.
  rewrite !var_sample_variance by (rewrite length_map; exact Hlen).
  rewrite average_deviation_real by exact Hr. reflexivity.
Qed.

Lemma score_short (w : DataFrame) (noise : float64) (rel : bool) :
  (length w <= 1)%nat -> getActivityIndex w noise rel = Ok NaN.
Proof.
  intros Hlen. rewrite score_average_deviation.
  rewrite !var_short by (rewrite length_map; exact Hlen).
  destruct rel, noise; reflexivity.
Qed.

Lemma var_cases (l : list R) :
  var l = NaN \/ exists s : R, 0 <= s /\ var l = Fin s.
Proof.
  destruct (le_lt_dec (length l) 1) as [Hle|Hgt].
  - left. apply var_short. exact Hle.
  - right. exists (sample_variance l).
    split; [apply sample_variance_nonneg | apply var_sample_variance]; lia.
Qed.

(** Relative to a zero noise a variance deviates by nan (0 / 0) or inf. *)
Lemma deviation_zero_noise (v : float64) :
  (v = NaN \/ exists s : R, 0 <= s /\ v = Fin s) ->
  ((v - zero) / zero)%np = NaN \/ ((v - zero) / zero)%np = PInf.
Proof.
  intros [-> | [s [Hs ->]]]; [left; reflexivity|].
  unfold zero. np_cases; auto.
Qed.



(** C4. On a window of exactly [freq] samples [getActivityIndex] returns
    the square root of the average deviation clamped at 0: each variance
    less the noise when relative = false, and that difference divided by
    the noise when relative = true and the noise is not 0.  On two samples
    or more and a real noise this is sqrt(max(avg, 0)) on the reals. *)
Theorem getActivityIndex_formula
    (w : DataFrame) (freq : nat) (noise : float64) (rel : bool) :
  (1 <= freq)%nat -> length w = freq -> (rel = true -> noise <> zero) ->
  getActivityIndex w noise rel
  = Ok (root (clamp (average_deviation rel
                       (unbiased_variance (map sx w))
                       (unbiased_variance (map sy w))
                       (unbiased_variance (map sz w)) noise))) /\
  (forall r : R, noise = Fin r -> (2 <= freq)%nat ->
     getActivityIndex w noise rel
     = Ok (Fin (sqrt (Rmax (real_average_deviation rel
                              (sample_variance (map sx w))
                              (sample_variance (map sy w))
                              (sample_variance (map sz w)) r) 0)))).
Proof.
  intros Hfreq Hlen Hnoise. split.
  - rewrite <- !var_unbiased_variance by (rewrite length_map; lia).
    apply score_average_deviation.
  - intros r -> Hfreq2. apply score_real; [lia|].
    intros Hrel E. apply (Hnoise Hrel). rewrite E. reflexivity.
Qed.

Lemma getActivityIndex_formula_witness :
  getActivityIndex [Sample 0 0 0; Sample 4 4 4] (Fin 2) true
  = Ok (root (clamp (average_deviation true
                       (unbiased_variance (map sx [Sample 0 0 0; Sample 4 4 4]))
                       (unbiased_variance (map sy [Sample 0 0 0; Sample 4 4 4]))
                       (unbiased_variance (map sz [Sample 0 0 0; Sample 4 4 4]))
                       (Fin 2)))) /\
  (forall r : R, Fin 2 = Fin r -> (2 <= 2)%nat ->
     getActivityIndex [Sample 0 0 0; Sample 4 4 4] (Fin 2) true
     = Ok (Fin (sqrt (Rmax (real_average_deviation true
                              (sample_variance (map sx [Sample 0 0 0; Sample 4 4 4]))
                              (sample_variance (map sy [Sample 0 0 0; Sample 4 4 4]))
                              (sample_variance (map sz [Sample 0 0 0; Sample 4 4 4]))
                              r) 0)))).
Proof.
  apply (getActivityIndex_formula [Sample 0 0 0; Sample 4 4 4] 2 (Fin 2) true).
  - lia.
  - reflexivity.
  - intros _ E. injection E as E. lra.
Defined.

(** ** Relative against absolute scoring *)

Lemma Rmax_div_pos (b r : R) : 0 < r -> Rmax (b / r) 0 = Rmax b 0 / r.
Proof.
  intros Hr. pose proof (Rinv_0_lt_compat r Hr) as Hinv.
  unfold Rmax, Rdiv.
  destruct (Rle_dec (b * / r) 0) as [H1|H1];
    destruct (Rle_dec b 0) as [H2|H2]; try nra.
Qed.

Lemma real_average_deviation_rel (vx vy vz r : R) :
  r <> 0 ->
  real_average_deviation true vx vy vz r
  = real_average_deviation false vx vy vz r / r.
Proof.
  intros Hr. unfold real_average_deviation. field. exact Hr.
Qed.



Lemma root_clamp_sign (a : float64) :
  ~ negative (root (clamp a)) /\
  (root (clamp a) <> NaN -> Np.leb zero (root (clamp a)) = true).
Proof.
  unfold negative, zero.
  destruct a as [r| | |]; simpl.
  - pose proof (sqrt_pos (Rmax r 0)) as Hs. split; [|intros _]; np_cases.
  - split; [discriminate | reflexivity].
  - pose proof (sqrt_pos 0) as Hs. split; [|intros _]; np_cases.
  - split; [discriminate | intros H; contradiction].
Qed.


(** The specification's scenario: variances (8, 8, 8) against a noise of 2
    score sqrt 6. *)
Example score_above_noise :
  getActivityIndex [Sample 0 0 0; Sample 4 4 4] (Fin 2) false
  = Ok (Fin (sqrt 6)).
Proof.
  rewrite score_real; [|simpl; lia | intros E; discriminate E].
  do 3 f_equal.
  unfold real_average_deviation, sample_variance, mean. simpl.
  rewrite Rmax_left by lra. lra.
Qed.

(** Variances (1, 1, 1) below a noise of 2 score 0. *)
Example score_below_noise :
  getActivityIndex [Sample 0 0 0; Sample 1 1 1; Sample 2 2 2] (Fin 2) false
  = Ok (Fin 0).
Proof.
  rewrite score_real; [|simpl; lia | intros E; discriminate E].
  unfold real_average_deviation, sample_variance, mean. simpl.
  rewrite Rmax_right by lra. rewrite sqrt_0. reflexivity.
Qed.

(** A reference signal with variances (2, 2, 2) has the "bai" noise 2. *)
Example noise_bai_example :
  getNoiseValue [Sample 0 0 0; Sample 2 2 2] "bai" = Ok (Fin 2).
Proof.
  rewrite noise_bai by (simpl; lia). do 2 f_equal.
  unfold variance_sum, sample_variance, mean. simpl. lra.
Qed.


(** ** Sums of scores *)

Lemma add_zero_l (a : float64) : (zero + a)%np = a.
Proof. destruct a; simpl; try reflexivity. f_equal. lra. Qed.

Lemma add_zero_r (a : float64) : (a + zero)%np = a.
Proof. destruct a; simpl; try reflexivity. f_equal. lra. Qed.

Lemma add_assoc (a b c : float64) : (a + b + c)%np = (a + (b + c))%np.
Proof. destruct a, b, c; simpl; try reflexivity. f_equal. lra. Qed.

Lemma scoreWindow_ok (w : DataFrame) (noise : float64) (rel : bool) :
  getActivityIndex w noise rel = Ok (scoreWindow w noise rel).
Proof.
  unfold scoreWindow.
  destruct (getActivityIndex_total w noise rel) as [v ->]. reflexivity.
Qed.

(** ** The signal aggregator *)

Section Aggregator.

Variable df : DataFrame.
Variable noise : float64.
Variable freq : Z.
Variable rel : bool.

Hypothesis freq_pos : (0 < freq)%Z.

Lemma count_nonneg : (0 <= len df / freq)%Z.
Proof.
  apply Z.div_pos; [unfold len; lia | exact freq_pos].
Qed.

Lemma count_nat_div :
  Z.to_nat (len df / freq) = (length df / Z.to_nat freq)%nat.
Proof.
  unfold len. apply Nat2Z.inj.
  rewrite Nat2Z.inj_div, !Z2Nat.id; [reflexivity | lia |].
  apply Z.div_pos; lia.
Qed.

(** The windows counted fit in the signal. *)
Lemma windows_fit (i : nat) :
  (i < Z.to_nat (len df / freq))%nat ->
  (i * Z.to_nat freq + Z.to_nat freq <= length df)%nat.
Proof.
  intros Hi.
  pose proof count_nonneg as Hc.
  pose proof (Z.mul_div_le (len df) freq freq_pos) as Hle.
  unfold len in *.
  apply Nat2Z.inj_le. rewrite Nat2Z.inj_add, Nat2Z.inj_mul, Z2Nat.id by lia.
  nia.
Qed.

Lemma window_length (i : nat) :
  (i < Z.to_nat (len df / freq))%nat ->
  length (window df (Z.to_nat freq) i) = Z.to_nat freq.
Proof.
  intros Hi. pose proof (windows_fit i Hi) as Hfit.
  unfold window, slice. rewrite length_firstn, length_skipn. lia.
Qed.

(** Inside the signal [iloc] takes the window without clipping. *)
Lemma iloc_window (i : nat) :
  (i < Z.to_nat (len df / freq))%nat ->
  iloc df (Z.of_nat i * freq) (Z.of_nat i * freq + freq)
  = window df (Z.to_nat freq) i.
Proof.
  intros Hi. pose proof (windows_fit i Hi) as Hfit.
  assert (Hz : (Z.of_nat i * freq + freq <= len df)%Z).
  { unfold len. apply Nat2Z.inj_le in Hfit.
    rewrite Nat2Z.inj_add, Nat2Z.inj_mul, Z2Nat.id in Hfit by lia.
    exact Hfit. }
  unfold iloc, slice_index, window, slice.
  destruct (Z.ltb_spec (Z.of_nat i * freq) 0) as [Hneg|_]; [nia|].
  destruct (Z.ltb_spec (Z.of_nat i * freq + freq) 0) as [Hneg|_]; [nia|].
  rewrite !Z.min_l by nia.
  replace (Z.of_nat i * freq + freq - Z.of_nat i * freq)%Z with freq by lia.
  rewrite Z2Nat.inj_mul, Nat2Z.id by lia.
  f_equal. lia.
Qed.

(** The loop adds the scores of the windows it runs over to its
    accumulator. *)
Lemma chunk_loop_sum (ks : list nat) (acc : float64) :
  Forall (fun i => (i < Z.to_nat (len df / freq))%nat) ks ->
  chunk_loop df noise freq rel (map Z.of_nat ks) acc
  = Ok (acc + fsum (map (fun i =>
                           scoreWindow (window df (Z.to_nat freq) i) noise rel)
                      ks))%np.
Proof.
  intros Hks. revert acc.
  induction Hks as [|i ks Hi _ IH]; intros acc; simpl.
  - rewrite add_zero_r. reflexivity.
  - rewrite (iloc_window i Hi), scoreWindow_ok. simpl.
    rewrite IH, add_assoc. reflexivity.
Qed.

Lemma signal_windows :
  getSignalActivityIndex df noise freq rel
  = Ok (fsum (map (fun i =>
                     scoreWindow (window df (Z.to_nat freq) i) noise rel)
                (seq 0 (Z.to_nat (len df / freq)))),
        (len df / freq)%Z).
Proof.
  unfold getSignalActivityIndex, py_floordiv.
  destruct (Z.eqb_spec freq 0) as [E|_]; [lia|]. cbn [bind].
  unfold range. rewrite chunk_loop_sum.
  - cbn [bind]. rewrite add_zero_l. reflexivity.
  - apply Forall_forall. intros i Hi. apply in_seq in Hi. lia.
Qed.

End Aggregator.

Lemma floor_bounds (n freq : Z) :
  (0 < freq)%Z -> (freq * (n / freq) <= n < freq * (n / freq + 1))%Z.
Proof.
  intros Hfreq. split.
  - apply Z.mul_div_le. exact Hfreq.
  - apply Z.mul_succ_div_gt. exact Hfreq.
Qed.

(** Cut to its full windows, a signal keeps the windows it had. *)
Lemma window_firstn (df : DataFrame) (f c i : nat) :
  (i < c)%nat -> window (firstn (c * f) df) f i = window df f i.
Proof.
  intros Hi. unfold window, slice.
  rewrite skipn_firstn_comm, firstn_firstn. f_equal. nia.
Qed.

Lemma len_firstn_windows (df : DataFrame) (freq : Z) :
  (0 < freq)%Z ->
  len (firstn (Z.to_nat (len df / freq) * Z.to_nat freq) df)
  = (len df / freq * freq)%Z.
Proof.
  intros Hfreq. pose proof (floor_bounds (len df) freq Hfreq) as [Hlo _].
  pose proof (count_nonneg df freq Hfreq) as Hc.
  unfold len in *. rewrite length_firstn, Nat2Z.inj_min, Nat2Z.inj_mul.
  rewrite !Z2Nat.id by lia. lia.
Qed.

Lemma trailing_ignored (df : DataFrame) (noise : float64) (freq : Z)
    (rel : bool) :
  (0 < freq)%Z ->
  getSignalActivityIndex
    (firstn (Z.to_nat (len df / freq) * Z.to_nat freq) df) noise freq rel
  = getSignalActivityIndex df noise freq rel.
Proof.
  intros Hfreq. rewrite !signal_windows by exact Hfreq.
  rewrite len_firstn_windows by exact Hfreq.
  rewrite Z.div_mul by lia.
  do 3 f_equal. apply map_ext_in. intros i Hi. apply in_seq in Hi.
  rewrite window_firstn by lia. reflexivity.
Qed.

(** C6. For a positive [freq], [getSignalActivityIndex] returns the window
    count floor(len / freq) and the sum of the scores of the consecutive
    windows [i*freq, i*freq+freq), each of [freq] samples; the samples
    after the last full window do not count. *)
Theorem getSignalActivityIndex_windows
    (df : DataFrame) (noise : float64) (freq : Z) (rel : bool) :
  (0 < freq)%Z ->
  let f := Z.to_nat freq in
  let count := Z.to_nat (len df / freq) in
  getSignalActivityIndex df noise freq rel
  = Ok (fsum (map (fun i => scoreWindow (window df f i) noise rel)
                (seq 0 count)),
        Z.of_nat count) /\
  count = (length df / f)%nat /\
  (freq * Z.of_nat count <= len df < freq * (Z.of_nat count + 1))%Z /\
  (forall i, (i < count)%nat ->
     length (window df f i) = f /\
     getActivityIndex (window df f i) noise rel
     = Ok (scoreWindow (window df f i) noise rel)) /\
  getSignalActivityIndex (firstn (count * f) df) noise freq rel
  = getSignalActivityIndex df noise freq rel.
Proof.
  intros Hfreq f count.
  pose proof (count_nonneg df freq Hfreq) as Hc.
  assert (Hcount : Z.of_nat count = (len df / freq)%Z).
  { unfold count. apply Z2Nat.id. exact Hc. }
  split; [rewrite Hcount; apply signal_windows; exact Hfreq|].
  split; [apply count_nat_div; exact Hfreq|].
  split; [rewrite Hcount; apply floor_bounds; exact Hfreq|].
  split; [|apply trailing_ignored; exact Hfreq].
  intros i Hi. split; [apply window_length; assumption|].
  apply scoreWindow_ok.
Qed.

Lemma getSignalActivityIndex_windows_witness :
  let df := [Sample 0 0 0; Sample 4 4 4; Sample 1 1 1; Sample 1 1 1;
             Sample 9 9 9] in
  let f := Z.to_nat 2 in
  let count := Z.to_nat (len df / 2) in
  getSignalActivityIndex df (Fin 2) 2 false
  = Ok (fsum (map (fun i => scoreWindow (window df f i) (Fin 2) false)
                (seq 0 count)),
        Z.of_nat count) /\
  count = (length df / f)%nat /\
  (2 * Z.of_nat count <= len df < 2 * (Z.of_nat count + 1))%Z /\
  (forall i, (i < count)%nat ->
     length (window df f i) = f /\
     getActivityIndex (window df f i) (Fin 2) false
     = Ok (scoreWindow (window df f i) (Fin 2) false)) /\
  getSignalActivityIndex (firstn (count * f) df) (Fin 2) 2 false
  = getSignalActivityIndex df (Fin 2) 2 false.
Proof.
  intros df. apply (getSignalActivityIndex_windows df (Fin 2) 2 false). lia.
Defined.

(** A 95-sample signal at freq = 30 has 3 windows. *)
Example ninety_five_samples (noise : float64) (rel : bool) :
  exists total,
    getSignalActivityIndex (repeat (Sample 0 0 0) 95) noise 30 rel
    = Ok (total, 3%Z).
Proof.
  eexists. rewrite signal_windows by lia. reflexivity.
Qed.

(** C7. A signal shorter than [freq] gives (0, 0) and raises nothing. *)
Theorem getSignalActivityIndex_short
    (df : DataFrame) (noise : float64) (freq : Z) (rel : bool) :
  (len df < freq)%Z ->
  getSignalActivityIndex df noise freq rel = Ok (zero, 0%Z).
Proof.
  intros Hshort.
  assert (Hlen : (0 <= len df)%Z) by (unfold len; lia).
  rewrite signal_windows by lia.
  rewrite Z.div_small by lia. reflexivity.
Qed.

Lemma getSignalActivityIndex_short_witness :
  getSignalActivityIndex [Sample 1 2 3; Sample 4 5 6] (Fin 2) 30 true
  = Ok (zero, 0%Z).
Proof.
  apply getSignalActivityIndex_short. reflexivity.
Defined.

(** * Further properties of the three functions *)

(** ** The variance under an offset, a change of unit and a reordering *)

Lemma Rsum_map_offset (c : R) (l : list R) :
  Rsum (map (fun v => v + c) l) = Rsum l + INR (length l) * c.
Proof.
  unfold Rsum. induction l as [|v l IH].
  - simpl. ring.
  - cbn [map fold_right]. rewrite IH.
    change (length (v :: l)) with (S (length l)). rewrite S_INR. ring.
Qed.

Lemma Rsum_map_scale (k : R) (l : list R) :
  Rsum (map (fun v => k * v) l) = k * Rsum l.
Proof.
  unfold Rsum. induction l as [|v l IH]; cbn [map fold_right].
  - ring.
  - rewrite IH. ring.
Qed.

Lemma Rsum_permutation (l l' : list R) :
  Permutation l l' -> Rsum l = Rsum l'.
Proof.
  unfold Rsum. induction 1; cbn [fold_right]; lra.
Qed.

Lemma var_offset (c : R) (l : list R) :
  var (map (fun v => v + c) l) = var l.
Proof.
  unfold var. rewrite length_map.
  destruct (Nat.leb_spec (length l) 1) as [_|Hlen]; [reflexivity|].
  assert (Hn : INR (length l) <> 0).
  { pose proof (INR_two_le (length l) ltac:(lia)). lra. }
  do 2 f_equal. rewrite map_map. f_equal. apply map_ext. intros v.
  rewrite Rsum_map_offset. f_equal. field. exact Hn.
Qed.

Lemma var_scale (k : R) (l : list R) :
  var (map (fun v => k * v) l) = (Fin (k * k) * var l)%np.
Proof.
  unfold var. rewrite length_map.
  destruct (Nat.leb_spec (length l) 1) as [_|Hlen]; [reflexivity|].
  assert (Hn : 2 <= INR (length l)) by (apply INR_two_le; lia).
  cbn [Np.mul]. f_equal. rewrite map_map, Rsum_map_scale.
  erewrite map_ext with (g := fun v => (k * k) * (Rsum l / INR (length l) - v) ^ 2)
    by (intros v; field; lra).
  rewrite <- (map_map (fun v => (Rsum l / INR (length l) - v) ^ 2)
                (fun s => k * k * s)).
  rewrite Rsum_map_scale. field. lra.
Qed.

Lemma var_permutation (l l' : list R) :
  Permutation l l' -> var l = var l'.
Proof.
  intros Hp. unfold var.
  rewrite <- (Permutation_length Hp), <- (Rsum_permutation _ _ Hp).
  destruct (Nat.leb_spec (length l) 1) as [_|_]; [reflexivity|].
  do 2 f_equal. apply Rsum_permutation. apply Permutation_map. exact Hp.
Qed.

Lemma columns_offset (c : sample) (df : DataFrame) :
  map sx (offset c df) = map (fun v => v + sx c) (map sx df) /\
  map sy (offset c df) = map (fun v => v + sy c) (map sy df) /\
  map sz (offset c df) = map (fun v => v + sz c) (map sz df).
Proof.
  unfold offset. rewrite !map_map. repeat split; reflexivity.
Qed.

Lemma columns_scaled (k : R) (df : DataFrame) :
  map sx (scaled k df) = map (fun v => k * v) (map sx df) /\
  map sy (scaled k df) = map (fun v => k * v) (map sy df) /\
  map sz (scaled k df) = map (fun v => k * v) (map sz df).
Proof.
  unfold scaled. rewrite !map_map. repeat split; reflexivity.
Qed.

Lemma var_columns_offset (c : sample) (df : DataFrame) :
  var (map sx (offset c df)) = var (map sx df) /\
  var (map sy (offset c df)) = var (map sy df) /\
  var (map sz (offset c df)) = var (map sz df).
Proof.
  destruct (columns_offset c df) as [-> [-> ->]].
  rewrite !var_offset. repeat split; reflexivity.
Qed.

Lemma getActivityIndex_var_ext (w w' : DataFrame) (noise : float64)
    (rel : bool) :
  var (map sx w') = var (map sx w) ->
  var (map sy w') = var (map sy w) ->
  var (map sz w') = var (map sz w) ->
  getActivityIndex w' noise rel = getActivityIndex w noise rel.
Proof.
  intros Hx Hy Hz. unfold getActivityIndex. rewrite Hx, Hy, Hz. reflexivity.
Qed.





(** ** A change of unit *)

Lemma square_pos (k : R) : k <> 0 -> 0 < k * k.
Proof. intros Hk. nra. Qed.

(** The relative deviation of a variance is the same in every unit. *)
Lemma deviation_scaled (k r : R) (v : float64) :
  k <> 0 ->
  ((Fin (k * k) * v - Fin (k * k * r)) / Fin (k * k * r))%np
  = ((v - Fin r) / Fin r)%np.
Proof.
  intros Hk. pose proof (square_pos k Hk) as Hkk.
  destruct v as [s| | |]; cbn [Np.mul Np.sub Np.div]; try reflexivity.
  - destruct (Req_dec_T (k * k * r) 0) as [E|E];
      destruct (Req_dec_T r 0) as [E'|E']; try (exfalso; nra).
    + destruct (Req_dec_T (k * k * s - k * k * r) 0) as [F|F];
        destruct (Req_dec_T (s - r) 0) as [F'|F']; try (exfalso; nra);
        try reflexivity.
      unfold Np.nonneg.
      destruct (Rlt_dec (k * k * s - k * k * r) 0);
        destruct (Rlt_dec (s - r) 0); try (exfalso; nra); reflexivity.
    + f_equal. field. split; [exact E' | exact Hk].
  - destruct (Req_dec_T (k * k) 0) as [E|_]; [lra|].
    unfold Np.nonneg. destruct (Rlt_dec (k * k) 0) as [F|_]; [lra|].
    cbn [Np.signed_inf Np.sub Np.div]. unfold Np.nonneg.
    destruct (Rlt_dec (k * k * r) 0); destruct (Rlt_dec r 0);
      try (exfalso; nra); reflexivity.
  - destruct (Req_dec_T (k * k) 0) as [E|_]; [lra|].
    unfold Np.nonneg. destruct (Rlt_dec (k * k) 0) as [F|_]; [lra|].
    cbn [negb Np.signed_inf Np.sub Np.div]. unfold Np.nonneg.
    destruct (Rlt_dec (k * k * r) 0); destruct (Rlt_dec r 0);
      try (exfalso; nra); reflexivity.
Qed.

Lemma var_columns_scaled (k : R) (df : DataFrame) :
  var (map sx (scaled k df)) = (Fin (k * k) * var (map sx df))%np /\
  var (map sy (scaled k df)) = (Fin (k * k) * var (map sy df))%np /\
  var (map sz (scaled k df)) = (Fin (k * k) * var (map sz df))%np.
Proof.
  destruct (columns_scaled k df) as [-> [-> ->]].
  rewrite !var_scale. repeat split; reflexivity.
Qed.



Lemma sample_variance_scale (k : R) (l : list R) :
  (2 <= length l)%nat ->
  sample_variance (map (fun v => k * v) l) = k * k * sample_variance l.
Proof.
  intros Hlen. pose proof (var_scale k l) as H.
  rewrite !var_sample_variance in H by (try rewrite length_map; exact Hlen).
  cbn [Np.mul] in H. injection H as H. exact H.
Qed.

Lemma variance_sum_scaled (k : R) (df : DataFrame) :
  (2 <= length df)%nat ->
  variance_sum (scaled k df) = k * k * variance_sum df.
Proof.
  intros Hlen. unfold variance_sum.
  destruct (columns_scaled k df) as [-> [-> ->]].
  rewrite !sample_variance_scale by (rewrite length_map; exact Hlen). ring.
Qed.

Lemma score_absolute_real (w : DataFrame) (r : R) :
  (2 <= length w)%nat ->
  getActivityIndex w (Fin r) false
  = Ok (Fin (sqrt (Rmax (mean_variance w - r) 0))).
Proof.
  intros Hlen. rewrite score_real by (try exact Hlen; intros E; discriminate E).
  do 3 f_equal. unfold real_average_deviation, mean_variance, variance_sum.
  f_equal. field.
Qed.



(** ** The absolute score against the noise *)

(** X6. A larger noise never gives a larger absolute score: on a window of
    two samples or more, the score is antitone in the noise. *)
Theorem getActivityIndex_antitone_in_noise (w : DataFrame) (r1 r2 : R) :
  (2 <= length w)%nat -> r1 <= r2 ->
  exists s1 s2 : R,
    getActivityIndex w (Fin r1) false = Ok (Fin s1) /\
    getActivityIndex w (Fin r2) false = Ok (Fin s2) /\
    s2 <= s1.
Proof.
  intros Hlen Hr. eexists. eexists.
  split; [apply score_absolute_real; exact Hlen|].
  split; [apply score_absolute_real; exact Hlen|].
  apply sqrt_le_1_alt. apply Rle_max_compat_r. lra.
Qed.

Lemma getActivityIndex_antitone_in_noise_witness :
  exists s1 s2 : R,
    getActivityIndex [Sample 0 0 0; Sample 4 4 4] (Fin 1) false
    = Ok (Fin s1) /\
    getActivityIndex [Sample 0 0 0; Sample 4 4 4] (Fin 2) false
    = Ok (Fin s2) /\
    s2 <= s1.
Proof.
  apply getActivityIndex_antitone_in_noise; [simpl; lia | lra].
Defined.



(** ** Values that are not numbers *)

Lemma average_deviation_nan_noise (rel : bool) (a b c : float64) :
  average_deviation rel a b c NaN = NaN.
Proof. destruct rel, a, b, c; reflexivity. Qed.

Lemma score_nan_noise (w : DataFrame) (rel : bool) :
  getActivityIndex w NaN rel = Ok NaN.
Proof.
  rewrite score_average_deviation, average_deviation_nan_noise. reflexivity.
Qed.

(** X8. A NaN noise is not rejected and not clamped: every window scores
    NaN against it, in both modes. *)
Theorem getActivityIndex_nan_noise (w : DataFrame) (rel : bool) :
  getActivityIndex w NaN rel = Ok NaN /\
  (forall e, getActivityIndex w NaN rel <> Raise e).
Proof.
  rewrite score_nan_noise. split; [reflexivity|]. intros e H. discriminate H.
Qed.

(** X9. A window of fewer than two samples (the empty window included) has
    no variance: it scores NaN whatever the noise and the mode, and
    nothing is raised. *)
Theorem getActivityIndex_short_window
    (w : DataFrame) (noise : float64) (rel : bool) :
  (length w <= 1)%nat ->
  getActivityIndex w noise rel = Ok NaN.
Proof.
  intros Hlen. apply score_short. exact Hlen.
Qed.

Lemma getActivityIndex_short_window_witness :
  getActivityIndex [] (Fin 2) true = Ok NaN.
Proof.
  apply getActivityIndex_short_window. simpl. lia.
Defined.

(** X10. On an empty or one-sample reference signal [getNoiseValue] raises
    nothing and returns NaN, in mode "paper" and in mode "bai". *)
Theorem getNoiseValue_short_reference (df : DataFrame) (mode : string) :
  (length df <= 1)%nat ->
  mode = "paper"%string \/ mode = "bai"%string ->
  getNoiseValue df mode = Ok NaN.
Proof.
  intros Hlen Hmode. destruct (noise_short df Hlen) as [Hp Hb].
  destruct Hmode as [-> | ->]; assumption.
Qed.

Lemma getNoiseValue_short_reference_witness :
  getNoiseValue [] "bai" = Ok NaN.
Proof.
  apply getNoiseValue_short_reference; [simpl; lia | right; reflexivity].
Defined.

(** ** The aggregator outside a positive [freq] *)

Lemma range_nonpos (n : Z) : (n <= 0)%Z -> range n = [].
Proof.
  intros Hn. unfold range. replace (Z.to_nat n) with 0%nat by lia.
  reflexivity.
Qed.

Lemma floordiv_negative (a b : Z) :
  (0 <= a)%Z -> (b < 0)%Z -> (a / b <= 0)%Z /\ (0 < a -> a / b < 0)%Z.
Proof.
  intros Ha Hb.
  pose proof (Z_div_mod_eq_full a b) as Heq.
  pose proof (Z.mod_neg_bound a b Hb) as Hm.
  split; [|intros Hpos]; nia.
Qed.

Lemma signal_negative_freq (df : DataFrame) (noise : float64) (freq : Z)
    (rel : bool) :
  (freq < 0)%Z ->
  getSignalActivityIndex df noise freq rel = Ok (zero, (len df / freq)%Z).
Proof.
  intros Hfreq. unfold getSignalActivityIndex, py_floordiv.
  destruct (Z.eqb_spec freq 0) as [E|_]; [lia|]. cbn [bind].
  destruct (floordiv_negative (len df) freq) as [Hq _];
    [unfold len; lia | exact Hfreq |].
  rewrite range_nonpos by exact Hq. reflexivity.
Qed.

(** X11. [getSignalActivityIndex] raises exactly when [freq] is 0, and then
    ZeroDivisionError, on every signal; for any other [freq] it returns,
    with len(df) // freq as its second component. *)
Theorem getSignalActivityIndex_raises_iff_zero_freq
    (df : DataFrame) (noise : float64) (freq : Z) (rel : bool) :
  (freq = 0%Z ->
   getSignalActivityIndex df noise freq rel = Raise ZeroDivisionError) /\
  (freq <> 0%Z ->
   exists total,
     getSignalActivityIndex df noise freq rel
     = Ok (total, (len df / freq)%Z)).
Proof.
  split.
  - intros ->. reflexivity.
  - intros Hfreq. destruct (Z_lt_le_dec freq 0) as [Hneg|Hpos].
    + eexists. apply signal_negative_freq. exact Hneg.
    + eexists. apply signal_windows. lia.
Qed.

(** X12. A negative [freq] is not rejected: no window is scored, the total
    is 0, and the reported duration is not positive - negative as soon as
    the signal has a sample. *)
Theorem getSignalActivityIndex_negative_freq
    (df : DataFrame) (noise : float64) (freq : Z) (rel : bool) :
  (freq < 0)%Z ->
  getSignalActivityIndex df noise freq rel = Ok (zero, (len df / freq)%Z) /\
  (len df / freq <= 0)%Z /\
  (df <> [] -> len df / freq < 0)%Z.
Proof.
  intros Hfreq.
  destruct (floordiv_negative (len df) freq) as [Hq Hlt];
    [unfold len; lia | exact Hfreq |].
  split; [apply signal_negative_freq; exact Hfreq|].
  split; [exact Hq|].
  intros Hne. apply Hlt. unfold len. destruct df; [contradiction | simpl; lia].
Qed.

Lemma getSignalActivityIndex_negative_freq_witness :
  getSignalActivityIndex [Sample 1 2 3; Sample 4 5 6; Sample 7 8 9]
    (Fin 2) (-2) false
  = Ok (zero, (len [Sample 1 2 3; Sample 4 5 6; Sample 7 8 9] / -2)%Z) /\
  (len [Sample 1 2 3; Sample 4 5 6; Sample 7 8 9] / -2 <= 0)%Z /\
  ([Sample 1 2 3; Sample 4 5 6; Sample 7 8 9] <> [] ->
   len [Sample 1 2 3; Sample 4 5 6; Sample 7 8 9] / -2 < 0)%Z.
Proof.
  apply getSignalActivityIndex_negative_freq. lia.
Defined.

(** ** Totals *)

Lemma add_not_negative (a b : float64) :
  ~ negative a -> ~ negative b -> ~ negative (a + b)%np.
Proof.
  unfold negative, zero.
  destruct a as [r| | |], b as [s| | |]; simpl; intros Ha Hb; try discriminate;
    try (exfalso; apply Ha; reflexivity); try (exfalso; apply Hb; reflexivity).
  destruct (Rlt_dec r 0) as [Hr|Hr]; [exfalso; apply Ha; reflexivity|].
  destruct (Rlt_dec s 0) as [Hs|Hs]; [exfalso; apply Hb; reflexivity|].
  destruct (Rlt_dec (r + s) 0) as [Hrs|_]; [lra | discriminate].
Qed.

Lemma score_not_negative (w : DataFrame) (noise : float64) (rel : bool)
    (v : float64) :
  getActivityIndex w noise rel = Ok v -> ~ negative v.
Proof.
  intros H. rewrite score_average_deviation in H. injection H as <-.
  apply root_clamp_sign.
Qed.

Lemma chunk_loop_not_negative (df : DataFrame) (noise : float64) (freq : Z)
    (rel : bool) (indices : list Z) :
  forall acc total,
    ~ negative acc ->
    chunk_loop df noise freq rel indices acc = Ok total ->
    ~ negative total.
Proof.
  induction indices as [|i rest IH]; intros acc total Hacc Hloop; simpl in Hloop.
  - injection Hloop as <-. exact Hacc.
  - destruct (getActivityIndex (iloc df (i * freq) (i * freq + freq)) noise rel)
      as [ai|e] eqn:Hai; simpl in Hloop; [|discriminate Hloop].
    apply (IH (acc + ai)%np total); [|exact Hloop].
    apply add_not_negative; [exact Hacc|].
    apply (score_not_negative _ _ _ _ Hai).
Qed.

(** X13. Whatever [getSignalActivityIndex] returns as the total is never
    negative, for every signal, noise, [freq] and mode. *)
Theorem getSignalActivityIndex_total_not_negative
    (df : DataFrame) (noise : float64) (freq : Z) (rel : bool)
    (total : float64) (duration : Z) :
  getSignalActivityIndex df noise freq rel = Ok (total, duration) ->
  ~ negative total.
Proof.
  unfold getSignalActivityIndex. intros H.
  destruct (py_floordiv (len df) freq) as [nchunks|e]; [|discriminate H].
  cbn [bind] in H.
  destruct (chunk_loop df noise freq rel (range nchunks) zero)
    as [t|e] eqn:Hloop; [|discriminate H].
  cbn [bind] in H. injection H as <- _.
  eapply chunk_loop_not_negative; [|exact Hloop].
  unfold negative, zero. simpl.
  destruct (Rlt_dec 0 0) as [H0|_]; [lra | discriminate].
Qed.

Lemma getSignalActivityIndex_total_not_negative_witness :
  ~ negative
      (fsum (map (fun i =>
                    scoreWindow
                      (window [Sample 0 0 0; Sample 4 4 4; Sample 1 1 1]
                         (Z.to_nat 2) i) (Fin 2) false)
               (seq 0 (Z.to_nat
                         (len [Sample 0 0 0; Sample 4 4 4; Sample 1 1 1]
                          / 2))))).
Proof.
  apply (getSignalActivityIndex_total_not_negative
           [Sample 0 0 0; Sample 4 4 4; Sample 1 1 1] (Fin 2) 2 false _
           (len [Sample 0 0 0; Sample 4 4 4; Sample 1 1 1] / 2)%Z).
  apply signal_windows. lia.
Defined.

(** ** Joining two signals *)

Lemma fsum_app (l1 l2 : list float64) :
  fsum (l1 ++ l2) = (fsum l1 + fsum l2)%np.
Proof.
  unfold fsum. induction l1 as [|a l1 IH]; cbn [app fold_right].
  - rewrite add_zero_l. reflexivity.
  - rewrite IH, add_assoc. reflexivity.
Qed.

Lemma map_seq_from (A : Type) (g : nat -> A) (n a : nat) :
  map g (seq a n) = map (fun j => g (a + j)%nat) (seq 0 n).
Proof.
  revert a g. induction n as [|n IH]; intros a g; [reflexivity|].
  cbn [seq map]. f_equal; [f_equal; lia|].
  rewrite (IH (S a) g), (IH 1%nat (fun j => g (a + j)%nat)).
  apply map_ext. intros j. f_equal. lia.
Qed.

Lemma window_app_l (df1 df2 : DataFrame) (f i : nat) :
  (i * f + f <= length df1)%nat ->
  window (df1 ++ df2) f i = window df1 f i.
Proof.
  intros Hfit. unfold window, slice.
  rewrite skipn_app, firstn_app, length_skipn.
  replace (i * f + f - i * f - (length df1 - i * f))%nat with 0%nat by lia.
  rewrite firstn_O, app_nil_r. reflexivity.
Qed.

Lemma window_app_r (df1 df2 : DataFrame) (f c j : nat) :
  length df1 = (c * f)%nat ->
  window (df1 ++ df2) f (c + j) = window df2 f j.
Proof.
  intros Hlen. unfold window, slice.
  rewrite skipn_app, skipn_all2 by nia. cbn [app].
  replace ((c + j) * f - length df1)%nat with (j * f)%nat by nia.
  f_equal. lia.
Qed.

Lemma whole_windows_length (df : DataFrame) (freq : Z) :
  (0 < freq)%Z -> (len df mod freq = 0)%Z ->
  length df = (Z.to_nat (len df / freq) * Z.to_nat freq)%nat.
Proof.
  intros Hfreq Hmod.
  pose proof (Z_div_exact_full_2 (len df) freq ltac:(lia) Hmod) as Hex.
  pose proof (count_nonneg df freq Hfreq) as Hc.
  apply Nat2Z.inj. rewrite Nat2Z.inj_mul, !Z2Nat.id by lia.
  unfold len in *. lia.
Qed.



(** ** An offset on the whole signal *)

Lemma iloc_offset (c : sample) (df : DataFrame) (a b : Z) :
  iloc (offset c df) a b = offset c (iloc df a b).
Proof.
  unfold iloc, len, offset. rewrite length_map, skipn_map, firstn_map.
  reflexivity.
Qed.

Lemma score_offset (c : sample) (w : DataFrame) (noise : float64)
    (rel : bool) :
  getActivityIndex (offset c w) noise rel = getActivityIndex w noise rel.
Proof.
  destruct (var_columns_offset c w) as [Hx [Hy Hz]].
  apply getActivityIndex_var_ext; assumption.
Qed.

Lemma chunk_loop_offset (c : sample) (df : DataFrame) (noise : float64)
    (freq : Z) (rel : bool) (indices : list Z) :
  forall acc,
    chunk_loop (offset c df) noise freq rel indices acc
    = chunk_loop df noise freq rel indices acc.
Proof.
  induction indices as [|i rest IH]; intros acc; [reflexivity|].
  cbn [chunk_loop]. rewrite iloc_offset, score_offset.
  destruct (getActivityIndex (iloc df (i * freq) (i * freq + freq)) noise rel);
    cbn [bind]; [apply IH | reflexivity].
Qed.


(** ** Totals that are not numbers *)

Lemma window_length_le (df : DataFrame) (f i : nat) :
  (length (window df f i) <= f)%nat.
Proof.
  unfold window, slice. rewrite length_firstn. lia.
Qed.

Lemma scoreWindow_short (w : DataFrame) (noise : float64) (rel : bool) :
  (length w <= 1)%nat -> scoreWindow w noise rel = NaN.
Proof.
  intros Hlen. unfold scoreWindow. rewrite score_short by exact Hlen.
  reflexivity.
Qed.

Lemma scoreWindow_nan_noise (w : DataFrame) (rel : bool) :
  scoreWindow w NaN rel = NaN.
Proof.
  unfold scoreWindow. rewrite score_nan_noise. reflexivity.
Qed.

Lemma first_window_exists (df : DataFrame) (freq : Z) :
  (0 < freq <= len df)%Z ->
  exists n, Z.to_nat (len df / freq) = S n.
Proof.
  intros Hfreq. pose proof (Z.div_str_pos (len df) freq Hfreq) as Hq.
  exists (Nat.pred (Z.to_nat (len df / freq))). lia.
Qed.

(** The total is NaN as soon as the first window scores NaN. *)
Lemma signal_first_nan (df : DataFrame) (noise : float64) (freq : Z)
    (rel : bool) :
  (0 < freq <= len df)%Z ->
  scoreWindow (window df (Z.to_nat freq) 0) noise rel = NaN ->
  getSignalActivityIndex df noise freq rel = Ok (NaN, (len df / freq)%Z).
Proof.
  intros Hfreq Hnan. rewrite signal_windows by lia.
  destruct (first_window_exists df freq Hfreq) as [n ->].
  cbn [seq map fsum fold_right]. rewrite Hnan. reflexivity.
Qed.

(** X16. With [freq] = 1 every window is a single sample, which has no
    variance: on a signal that is not empty the total is NaN, and the
    duration is the number of samples. *)
Theorem getSignalActivityIndex_freq_one
    (df : DataFrame) (noise : float64) (rel : bool) :
  df <> [] ->
  getSignalActivityIndex df noise 1 rel = Ok (NaN, len df).
Proof.
  intros Hne.
  assert (Hlen : (1 <= len df)%Z).
  { unfold len. destruct df; [contradiction | simpl; lia]. }
  rewrite signal_first_nan.
  - rewrite Z.div_1_r. reflexivity.
  - lia.
  - apply scoreWindow_short. apply window_length_le.
Qed.

Lemma getSignalActivityIndex_freq_one_witness :
  getSignalActivityIndex [Sample 0 0 0; Sample 4 4 4] (Fin 2) 1 false
  = Ok (NaN, len [Sample 0 0 0; Sample 4 4 4]).
Proof.
  apply getSignalActivityIndex_freq_one. intros H. discriminate H.
Defined.

(** X17. A reference signal of fewer than two samples spoils every score
    silently: its noise is NaN, and scoring any signal of at least one
    window against it returns a NaN total, with the usual window count and
    no error. *)
Theorem calibrate_and_score_short_reference
    (reference signal : DataFrame) (mode : string) (freq : Z) (rel : bool) :
  (length reference <= 1)%nat ->
  mode = "paper"%string \/ mode = "bai"%string ->
  (0 < freq <= len signal)%Z ->
  calibrate_and_score reference signal mode freq rel
  = Ok (NaN, (len signal / freq)%Z).
Proof.
  intros Href Hmode Hfreq. unfold calibrate_and_score.
  destruct (noise_short reference Href) as [Hp Hb].
  assert (Hnoise : getNoiseValue reference mode = Ok NaN)
    by (destruct Hmode as [-> | ->]; assumption).
  rewrite Hnoise. cbn [bind].
  apply signal_first_nan; [exact Hfreq | apply scoreWindow_nan_noise].
Qed.

Lemma calibrate_and_score_short_reference_witness :
  calibrate_and_score [Sample 1 2 3]
    [Sample 0 0 0; Sample 4 4 4; Sample 1 1 1] "paper" 2 false
  = Ok (NaN, (len [Sample 0 0 0; Sample 4 4 4; Sample 1 1 1] / 2)%Z).
Proof.
  apply calibrate_and_score_short_reference;
    [simpl; lia | left; reflexivity | unfold len; simpl; lia].
Defined.

(** ** A reference signal that does not vary *)

Lemma Rsum_repeat (v : R) (n : nat) : Rsum (repeat v n) = INR n * v.
Proof.
  unfold Rsum. induction n as [|n IH].
  - simpl. ring.
  - cbn [repeat fold_right]. rewrite IH, S_INR. ring.
Qed.

Lemma var_repeat (v : R) (n : nat) : (2 <= n)%nat -> var (repeat v n) = Fin 0.
Proof.
  intros Hn. unfold var. rewrite repeat_length.
  destruct (Nat.leb_spec n 1) as [Hle|_]; [lia|].
  pose proof (INR_two_le n Hn) as HR.
  f_equal. rewrite map_repeat, !Rsum_repeat. field. split; lra.
Qed.

Lemma noise_constant (s : sample) (n : nat) (mode : string) :
  (2 <= n)%nat ->
  mode = "paper"%string \/ mode = "bai"%string ->
  getNoiseValue (repeat s n) mode = Ok zero.
Proof.
  intros Hn Hmode. unfold getNoiseValue.
  rewrite !map_repeat, !var_repeat by exact Hn.
  destruct Hmode as [-> | ->]; simpl; unfold zero.
  - do 2 f_equal. lra.
  - unfold three. np_cases. do 2 f_equal. lra.
Qed.

Lemma score_zero_noise (w : DataFrame) :
  scoreWindow w zero true = PInf \/ scoreWindow w zero true = NaN.
Proof.
  unfold scoreWindow. rewrite score_relative.
  destruct (deviation_zero_noise _ (var_cases (map sx w))) as [-> | ->];
    destruct (deviation_zero_noise _ (var_cases (map sy w))) as [-> | ->];
    destruct (deviation_zero_noise _ (var_cases (map sz w))) as [-> | ->];
    unfold three; simpl; auto.
  left. np_cases.
Qed.

Lemma fsum_inf_or_nan (l : list float64) :
  l <> [] -> Forall (fun v => v = PInf \/ v = NaN) l ->
  fsum l = PInf \/ fsum l = NaN.
Proof.
  intros Hne Hall. induction Hall as [|v l Hv Hall IH]; [contradiction|].
  unfold fsum in *. cbn [fold_right].
  destruct l as [|w l].
  - cbn [fold_right]. destruct Hv as [-> | ->]; simpl; auto.
  - destruct IH as [IH | IH]; [intros H; discriminate H | | ];
      rewrite IH; destruct Hv as [-> | ->]; simpl; auto.
Qed.



(** ** The notebook's example *)

Lemma iloc_len (df : DataFrame) (a b : Z) :
  (0 <= a <= b)%Z ->
  len (iloc df a b) = (Z.min b (len df) - Z.min a (len df))%Z.
Proof.
  intros Hab. unfold iloc, slice_index, len.
  destruct (Z.ltb_spec a 0) as [Ha|_]; [lia|].
  destruct (Z.ltb_spec b 0) as [Hb|_]; [lia|].
  rewrite length_firstn, length_skipn. lia.
Qed.

Lemma noise_bai_returns (df : DataFrame) :
  exists v, getNoiseValue df "bai" = Ok v.
Proof.
  unfold getNoiseValue. simpl. eexists. reflexivity.
Qed.

(** X19. On data of at least 600 rows the notebook's example raises
    nothing and reports 15 windows (the 450 rows 150..599 at 30 Hz), as its
    recorded output does.  The reference rows 1004700..1005599 are taken
    without a bounds check: on data of at most 1004701 rows fewer than two
    of them exist, the noise is NaN and so is the total. *)
Theorem notebook_example_duration (sample_df : DataFrame) :
  (600 <= len sample_df)%Z ->
  exists total,
    notebook_example sample_df = Ok (total, 15%Z) /\
    ((len sample_df <= 1004701)%Z -> total = NaN).
Proof.
  intros Hrows. unfold notebook_example, getitem_slice.
  set (signal := iloc sample_df 150 600).
  set (reference := iloc sample_df 1004700 1005600).
  assert (Hsig : len signal = 450%Z)
    by (unfold signal; rewrite iloc_len by lia; lia).
  destruct (noise_bai_returns reference) as [v Hv]. rewrite Hv. cbn [bind].
  destruct (Z_le_gt_dec (len sample_df) 1004701) as [Hshort|Hlong].
  - assert (Href : (length reference <= 1)%nat).
    { pose proof (iloc_len sample_df 1004700 1005600 ltac:(lia)) as Hl.
      fold reference in Hl. unfold len in *. lia. }
    destruct (noise_short reference Href) as [_ Hnan].
    rewrite Hnan in Hv. injection Hv as <-.
    exists NaN. split; [|reflexivity].
    rewrite signal_first_nan;
      [rewrite Hsig; reflexivity | lia | apply scoreWindow_nan_noise].
  - eexists. split; [|intros Hle; lia].
    rewrite signal_windows by lia. rewrite Hsig. reflexivity.
Qed.

Lemma notebook_example_duration_witness :
  exists total,
    notebook_example (repeat (Sample 0 0 1) 600) = Ok (total, 15%Z) /\
    ((len (repeat (Sample 0 0 1) 600) <= 1004701)%Z -> total = NaN).
Proof.
  apply notebook_example_duration.
  unfold len. rewrite repeat_length. lia.
Defined.

(** ** A change of unit, from the reference signal to the total *)

Lemma sum_scaled (k : R) (a b c : float64) :
  (a = NaN \/ exists r : R, 0 <= r /\ a = Fin r) ->
  (b = NaN \/ exists r : R, 0 <= r /\ b = Fin r) ->
  (c = NaN \/ exists r : R, 0 <= r /\ c = Fin r) ->
  (Fin (k * k) * a + Fin (k * k) * b + Fin (k * k) * c)%np
  = (Fin (k * k) * (a + b + c))%np /\
  ((Fin (k * k) * a + Fin (k * k) * b + Fin (k * k) * c) / three)%np
  = (Fin (k * k) * ((a + b + c) / three))%np.
Proof.
  intros [-> | [ra [_ ->]]] [-> | [rb [_ ->]]] [-> | [rc [_ ->]]];
    try (split; reflexivity).
  unfold three. cbn [Np.mul Np.add Np.div].
  destruct (Req_dec_T 3 0) as [E|_]; [lra|]. cbn [Np.mul].
  split; f_equal; field.
Qed.

Lemma noise_scaled (k : R) (df : DataFrame) (mode : string) :
  getNoiseValue (scaled k df) mode
  = (v <- getNoiseValue df mode ;; Ok (Fin (k * k) * v)%np).
Proof.
  unfold getNoiseValue.
  destruct (var_columns_scaled k df) as [-> [-> ->]].
  destruct (sum_scaled k _ _ _ (var_cases (map sx df)) (var_cases (map sy df))
              (var_cases (map sz df))) as [-> ->].
  destruct (mode =? "paper")%string, (mode =? "bai")%string; reflexivity.
Qed.

Lemma noise_value_cases (df : DataFrame) (mode : string) (v : float64) :
  getNoiseValue df mode = Ok v -> v = NaN \/ exists r : R, v = Fin r.
Proof.
  unfold getNoiseValue.
  destruct (var_cases (map sx df)) as [-> | [rx [_ ->]]];
    destruct (var_cases (map sy df)) as [-> | [ry [_ ->]]];
    destruct (var_cases (map sz df)) as [-> | [rz [_ ->]]];
    destruct (mode =? "paper")%string, (mode =? "bai")%string;
    unfold three; cbn [Np.add Np.div]; intros H;
    try discriminate H; injection H as <-; auto;
    try (right; eexists; reflexivity).
  all: destruct (Req_dec_T 3 0) as [E|_]; [lra|]; right; eexists; reflexivity.
Qed.

Lemma iloc_scaled (k : R) (df : DataFrame) (a b : Z) :
  iloc (scaled k df) a b = scaled k (iloc df a b).
Proof.
  unfold iloc, len, scaled. rewrite length_map, skipn_map, firstn_map.
  reflexivity.
Qed.

Lemma score_relative_scaled (k r : R) (w : DataFrame) :
  k <> 0 ->
  getActivityIndex (scaled k w) (Fin (k * k * r)) true
  = getActivityIndex w (Fin r) true.
Proof.
  intros Hk. rewrite !score_relative.
  destruct (var_columns_scaled k w) as [-> [-> ->]].
  rewrite !deviation_scaled by exact Hk. reflexivity.
Qed.

(** Two signals of one length whose slices score alike aggregate alike. *)
Lemma signal_ext (df df' : DataFrame) (noise noise' : float64) (freq : Z)
    (rel : bool) :
  len df' = len df ->
  (forall a b, getActivityIndex (iloc df' a b) noise' rel
               = getActivityIndex (iloc df a b) noise rel) ->
  getSignalActivityIndex df' noise' freq rel
  = getSignalActivityIndex df noise freq rel.
Proof.
  intros Hlen Hscore. unfold getSignalActivityIndex. rewrite Hlen.
  destruct (py_floordiv (len df) freq) as [nchunks|e]; [|reflexivity].
  cbn [bind].
  assert (Hloop : forall indices acc,
             chunk_loop df' noise' freq rel indices acc
             = chunk_loop df noise freq rel indices acc).
  { induction indices as [|i rest IH]; intros acc; [reflexivity|].
    cbn [chunk_loop]. rewrite Hscore.
    destruct (getActivityIndex (iloc df (i * freq) (i * freq + freq)) noise rel);
      cbn [bind]; [apply IH | reflexivity]. }
  rewrite Hloop. reflexivity.
Qed.



